(** * Request building of the account provisioning API (lib/provisioning/account.js)

    A shallow embedding of the request builders of [account.js] and the
    properties of the descriptors they hand to the transport
    [call_account_api].

    JavaScript objects are insertion-ordered association lists; the options
    object, which several builders mutate in place, lives in a store of
    objects and is passed by reference. *)

From stdpp Require Import gmap strings list.
From Stdlib Require Import ZArith.

Open Scope string_scope.

(** ** Values and objects *)

Module JS.

#[local] Set Warnings "-register-all".

(** The JavaScript values the builders handle.  [VUndefined] is the value of a
    parameter that was not supplied and of a property that is not there.
    [VFun] stands for a function object (the completion callback), known by
    its identity only. *)
Inductive value : Type :=
| VUndefined
| VNull
| VBool (b : bool)
| VNum (n : Z)
| VStr (s : string)
| VList (l : list value)
| VObj (o : list (string * value))
| VFun (f : positive).

(** An object: its own properties in insertion order. *)
Definition obj : Type := list (string * value).

Definition is_undefined (v : value) : bool :=
  match v with
  | VUndefined => true
  | _ => false
  end.

(** The own property [k] of [o], when there is one. *)
Fixpoint lookup_prop (o : obj) (k : string) : option value :=
  match o with
  | [] => None
  | (k', v) :: o' => if String.eqb k' k then Some v else lookup_prop o' k
  end.

(** [o.k]: reading a property that is not there gives [undefined]. *)
Definition get_prop (o : obj) (k : string) : value :=
  match lookup_prop o k with
  | Some v => v
  | None => VUndefined
  end.

(** [o.k = v]: an existing property keeps its place, a new one goes last. *)
Fixpoint set_prop (o : obj) (k : string) (v : value) : obj :=
  match o with
  | [] => [(k, v)]
  | (k', v') :: o' =>
      if String.eqb k' k then (k', v) :: o' else (k', v') :: set_prop o' k v
  end.

(** A formal parameter with a default value, [function f(x = d)]: the default
    is taken when the argument is [undefined]. *)
Definition default_param (d : value) (x : value) : value :=
  if is_undefined x then d else x.

End JS.

Import JS.

(** ** The store of option objects *)

Module Store.

Definition loc : Type := positive.

(** The objects allocated so far. *)
Abbreviation heap := (gmap positive obj).

Definition deref (h : heap) (l : loc) : obj :=
  match h !! l with
  | Some o => o
  | None => []
  end.

(** Computations that read and update the store. *)
Definition M (A : Type) : Type := heap -> A * heap.

Definition ret {A} (a : A) : M A := fun h => (a, h).

Definition bind {A B} (c : M A) (k : A -> M B) : M B :=
  fun h => let (a, h') := c h in k a h'.

(** [{}]: a new empty object. *)
Definition new_object : M loc :=
  fun h => let l := fresh (dom h) in (l, <[l := []]> h).

(** [l.k] *)
Definition read (l : loc) (k : string) : M value :=
  fun h => (get_prop (deref h l) k, h).

(** [l.k = v] *)
Definition assign (l : loc) (k : string) (v : value) : M unit :=
  fun h => (tt, <[l := set_prop (deref h l) k v]> h).

(** The formal parameter [options = {}]: [None] is an argument that was not
    supplied (or is [undefined]); every call then gets a new empty object. *)
Definition default_options (options : option loc) : M loc :=
  match options with
  | Some l => ret l
  | None => new_object
  end.

End Store.

Import Store.

Notation "'let!' x ':=' c 'in' k" := (bind c (fun x => k))
  (at level 10, x name, c at level 100, k at level 200).
Notation "'do!' c 'in' k" := (bind c (fun _ => k))
  (at level 10, c at level 100, k at level 200).

(** ** lib/utils: the helper the builders import *)

Module Utils.

(** Modelled from the spec: [pickOnlyExistingValues] is defined in
    [lib/utils], which is not part of the sources at hand.  The spec describes
    it as the filter that "removes entries whose value is the absent sentinel,
    preserving insertion order of remaining entries"; its call sites pass the
    source object followed by the keys to pick.  So: the entries of [source]
    whose key is one of [keys] and whose value is not [undefined], in the
    order [source] has them. *)
Definition pickOnlyExistingValues (source : obj) (keys : list string) : obj :=
  List.filter
    (fun kv => existsb (String.eqb (fst kv)) keys && negb (is_undefined (snd kv)))
    source.

End Utils.

Import Utils.

(** ** lib/provisioning/account.js *)

Module Account.

Inductive http_method : Type := GET | POST | PUT | DELETE.

(** What a builder hands to [call_account_api]: the arguments of that call.
    The options object is handed over by reference. *)
Record request : Type := mkRequest {
  req_method : http_method;
  req_uri : list value;
  req_params : obj;
  req_callback : value;
  req_options : loc
}.

(** The transport itself (HTTP, signing, decoding) is outside this module; a
    builder returns whatever the transport returns, and the transport is
    called exactly once, last.  A builder is therefore identified with the
    call it makes. *)
Definition call_account_api (method : http_method) (uri : list value)
    (params : obj) (callback : value) (options : loc) : M request :=
  ret (mkRequest method uri params callback options).

Definition sub_accounts (enabled ids prefix : value) (options : option loc)
    (callback : value) : M request :=
  let ids := default_param (VList []) ids in
  let! options := default_options options in
  let params := [("enabled", enabled); ("ids", ids); ("prefix", prefix)] in
  let uri := [VStr "sub_accounts"] in
  call_account_api GET uri params callback options.

Definition sub_account (sub_account_id : value) (options : option loc)
    (callback : value) : M request :=
  let! options := default_options options in
  let uri := [VStr "sub_accounts"; sub_account_id] in
  call_account_api GET uri [] callback options.

Definition create_sub_account (name cloud_name custom_attributes enabled
    base_account : value) (options : option loc) (callback : value) : M request :=
  let! options := default_options options in
  let params := [("cloud_name", cloud_name); ("name", name);
                 ("custom_attributes", custom_attributes);
                 ("enabled", enabled);
                 ("base_sub_account_id", base_account)] in
  do! assign options "content_type" (VStr "json") in
  let uri := [VStr "sub_accounts"] in
  call_account_api POST uri params callback options.

Definition delete_sub_account (sub_account_id : value) (options : option loc)
    (callback : value) : M request :=
  let! options := default_options options in
  let uri := [VStr "sub_accounts"; sub_account_id] in
  call_account_api DELETE uri [] callback options.

Definition update_sub_account (sub_account_id name cloud_name custom_attributes
    enabled : value) (options : option loc) (callback : value) : M request :=
  let! options := default_options options in
  let params := [("cloud_name", cloud_name); ("name", name);
                 ("custom_attributes", custom_attributes);
                 ("enabled", enabled)] in
  do! assign options "content_type" (VStr "json") in
  let uri := [VStr "sub_accounts"; sub_account_id] in
  call_account_api PUT uri params callback options.

Definition user (user_id : value) (options : option loc) (callback : value)
    : M request :=
  let! options := default_options options in
  let uri := [VStr "users"; user_id] in
  call_account_api GET uri [] callback options.

Definition users (pending user_ids prefix sub_account_id : value)
    (options : option loc) (callback : value) : M request :=
  let! options := default_options options in
  let uri := [VStr "users"] in
  let params := [("ids", user_ids); ("pending", pending); ("prefix", prefix);
                 ("sub_account_id", sub_account_id)] in
  call_account_api GET uri
    (pickOnlyExistingValues params ["ids"; "pending"; "prefix"; "sub_account_id"])
    callback options.

Definition create_user (name email role sub_account_ids : value)
    (options : option loc) (callback : value) : M request :=
  let! options := default_options options in
  let uri := [VStr "users"] in
  let params := [("name", name); ("email", email); ("role", role);
                 ("sub_account_ids", sub_account_ids)] in
  do! assign options "content_type" (VStr "json") in
  call_account_api POST uri params callback options.

Definition update_user (user_id name email role sub_account_ids : value)
    (options : option loc) (callback : value) : M request :=
  let! options := default_options options in
  let uri := [VStr "users"; user_id] in
  let params := [("name", name); ("email", email); ("role", role);
                 ("sub_account_ids", sub_account_ids)] in
  do! assign options "content_type" (VStr "json") in
  call_account_api PUT uri params callback options.

Definition delete_user (user_id : value) (options : option loc)
    (callback : value) : M request :=
  let! options := default_options options in
  let uri := [VStr "users"; user_id] in
  call_account_api DELETE uri [] callback options.

Definition create_user_group (name : value) (options : option loc)
    (callback : value) : M request :=
  let! options := default_options options in
  let uri := [VStr "user_groups"] in
  do! assign options "content_type" (VStr "json") in
  let params := [("name", name)] in
  call_account_api POST uri params callback options.

Definition update_user_group (group_id name : value) (options : option loc)
    (callback : value) : M request :=
  let! options := default_options options in
  let uri := [VStr "user_groups"; group_id] in
  let params := [("name", name)] in
  call_account_api PUT uri params callback options.

Definition delete_user_group (group_id : value) (options : option loc)
    (callback : value) : M request :=
  let! options := default_options options in
  let uri := [VStr "user_groups"; group_id] in
  call_account_api DELETE uri [] callback options.

Definition add_user_to_group (group_id user_id : value) (options : option loc)
    (callback : value) : M request :=
  let! options := default_options options in
  let uri := [VStr "user_groups"; group_id; VStr "users"; user_id] in
  call_account_api POST uri [] callback options.

Definition remove_user_from_group (group_id user_id : value)
    (options : option loc) (callback : value) : M request :=
  let! options := default_options options in
  let uri := [VStr "user_groups"; group_id; VStr "users"; user_id] in
  call_account_api DELETE uri [] callback options.

Definition user_group (group_id : value) (options : option loc)
    (callback : value) : M request :=
  let! options := default_options options in
  let uri := [VStr "user_groups"; group_id] in
  call_account_api GET uri [] callback options.

Definition user_groups (options : option loc) (callback : value) : M request :=
  let! options := default_options options in
  let uri := [VStr "user_groups"] in
  call_account_api GET uri [] callback options.

Definition user_group_users (group_id : value) (options : option loc)
    (callback : value) : M request :=
  let! options := default_options options in
  let uri := [VStr "user_groups"; group_id; VStr "users"] in
  call_account_api GET uri [] callback options.

Definition access_keys (sub_account_id : value) (options : option loc)
    (callback : value) : M request :=
  let! options := default_options options in
  let! page_size := read options "page_size" in
  let! page := read options "page" in
  let! sort_by := read options "sort_by" in
  let! sort_order := read options "sort_order" in
  let params :=
    pickOnlyExistingValues
      [("page_size", page_size); ("page", page); ("sort_by", sort_by);
       ("sort_order", sort_order)]
      ["page_size"; "page"; "sort_by"; "sort_order"] in
  let uri := [VStr "sub_accounts"; sub_account_id; VStr "access_keys"] in
  call_account_api GET uri params callback options.

Definition generate_access_key (sub_account_id : value) (options : option loc)
    (callback : value) : M request :=
  let! options := default_options options in
  let! name := read options "name" in
  let! enabled := read options "enabled" in
  let params :=
    pickOnlyExistingValues [("name", name); ("enabled", enabled)]
      ["name"; "enabled"] in
  do! assign options "content_type" (VStr "json") in
  let uri := [VStr "sub_accounts"; sub_account_id; VStr "access_keys"] in
  call_account_api POST uri params callback options.

Definition update_access_key (sub_account_id api_key : value)
    (options : option loc) (callback : value) : M request :=
  let! options := default_options options in
  let! name := read options "name" in
  let! enabled := read options "enabled" in
  let params :=
    pickOnlyExistingValues [("name", name); ("enabled", enabled)]
      ["name"; "enabled"] in
  do! assign options "content_type" (VStr "json") in
  let uri := [VStr "sub_accounts"; sub_account_id; VStr "access_keys"; api_key] in
  call_account_api PUT uri params callback options.

Definition delete_access_key (sub_account_id api_key : value)
    (options : option loc) (callback : value) : M request :=
  let! options := default_options options in
  let uri := [VStr "sub_accounts"; sub_account_id; VStr "access_keys"; api_key] in
  call_account_api DELETE uri [] callback options.

Definition delete_access_key_by_name (sub_account_id : value)
    (options : option loc) (callback : value) : M request :=
  let! options := default_options options in
  let! name := read options "name" in
  let params := [("name", name)] in
  let uri := [VStr "sub_accounts"; sub_account_id; VStr "access_keys"] in
  call_account_api DELETE uri params callback options.

(** The options object as the transport finds it when it is called. *)
Definition forwarded_options (res : request * heap) : obj :=
  deref (snd res) (req_options (fst res)).

(** The params mapping handed to the transport. *)
Definition forwarded_params (res : request * heap) : obj :=
  req_params (fst res).

(** The URI segments handed to the transport. *)
Definition forwarded_uri (res : request * heap) : list value :=
  req_uri (fst res).

(** The descriptor of a call, up to the identity of the options object:
    method, URI segments, params and the content of the options. *)
Definition descriptor (res : request * heap)
    : http_method * list value * obj * obj :=
  (req_method (fst res), forwarded_uri res, forwarded_params res,
   forwarded_options res).

(** One call of an exported function, with its positional arguments; the
    options and the callback, which every function takes last, are given to
    [invoke]. *)
Inductive invocation : Type :=
| Sub_accounts (enabled ids prefix : value)
| Sub_account (sub_account_id : value)
| Create_sub_account (name cloud_name custom_attributes enabled base_account : value)
| Delete_sub_account (sub_account_id : value)
| Update_sub_account (sub_account_id name cloud_name custom_attributes enabled : value)
| User (user_id : value)
| Users (pending user_ids prefix sub_account_id : value)
| Create_user (name email role sub_account_ids : value)
| Update_user (user_id name email role sub_account_ids : value)
| Delete_user (user_id : value)
| Create_user_group (name : value)
| Update_user_group (group_id name : value)
| Delete_user_group (group_id : value)
| Add_user_to_group (group_id user_id : value)
| Remove_user_from_group (group_id user_id : value)
| User_group (group_id : value)
| User_groups
| User_group_users (group_id : value)
| Access_keys (sub_account_id : value)
| Generate_access_key (sub_account_id : value)
| Update_access_key (sub_account_id api_key : value)
| Delete_access_key (sub_account_id api_key : value)
| Delete_access_key_by_name (sub_account_id : value).

(** [module.exports]: the exported function an invocation names, applied. *)
Definition invoke (i : invocation) (options : option loc) (callback : value)
    : M request :=
  match i with
  | Sub_accounts enabled ids prefix =>
      sub_accounts enabled ids prefix options callback
  | Sub_account id => sub_account id options callback
  | Create_sub_account name cloud_name custom_attributes enabled base_account =>
      create_sub_account name cloud_name custom_attributes enabled base_account
        options callback
  | Delete_sub_account id => delete_sub_account id options callback
  | Update_sub_account id name cloud_name custom_attributes enabled =>
      update_sub_account id name cloud_name custom_attributes enabled
        options callback
  | User id => user id options callback
  | Users pending user_ids prefix sub_account_id =>
      users pending user_ids prefix sub_account_id options callback
  | Create_user name email role sub_account_ids =>
      create_user name email role sub_account_ids options callback
  | Update_user id name email role sub_account_ids =>
      update_user id name email role sub_account_ids options callback
  | Delete_user id => delete_user id options callback
  | Create_user_group name => create_user_group name options callback
  | Update_user_group id name => update_user_group id name options callback
  | Delete_user_group id => delete_user_group id options callback
  | Add_user_to_group group_id user_id =>
      add_user_to_group group_id user_id options callback
  | Remove_user_from_group group_id user_id =>
      remove_user_from_group group_id user_id options callback
  | User_group id => user_group id options callback
  | User_groups => user_groups options callback
  | User_group_users id => user_group_users id options callback
  | Access_keys id => access_keys id options callback
  | Generate_access_key id => generate_access_key id options callback
  | Update_access_key id api_key => update_access_key id api_key options callback
  | Delete_access_key id api_key => delete_access_key id api_key options callback
  | Delete_access_key_by_name id => delete_access_key_by_name id options callback
  end.

(** The content of the options argument as the caller holds it in store [h]:
    an argument that is not supplied counts as the empty object. *)
Definition options_content (h : heap) (options : option loc) : obj :=
  match options with
  | Some l => deref h l
  | None => []
  end.

(** The object literal [access_keys] filters, read off the options [o]. *)
Definition access_keys_fields (o : obj) : obj :=
  [("page_size", get_prop o "page_size"); ("page", get_prop o "page");
   ("sort_by", get_prop o "sort_by"); ("sort_order", get_prop o "sort_order")].

(** The object literal [generate_access_key] and [update_access_key] filter,
    read off the options [o]. *)
Definition access_key_fields (o : obj) : obj :=
  [("name", get_prop o "name"); ("enabled", get_prop o "enabled")].

(** The name under which [module.exports] exports the function called. *)
Definition exported_name (i : invocation) : string :=
  match i with
  | Sub_accounts _ _ _ => "sub_accounts"
  | Sub_account _ => "sub_account"
  | Create_sub_account _ _ _ _ _ => "create_sub_account"
  | Delete_sub_account _ => "delete_sub_account"
  | Update_sub_account _ _ _ _ _ => "update_sub_account"
  | User _ => "user"
  | Users _ _ _ _ => "users"
  | Create_user _ _ _ _ => "create_user"
  | Update_user _ _ _ _ _ => "update_user"
  | Delete_user _ => "delete_user"
  | Create_user_group _ => "create_user_group"
  | Update_user_group _ _ => "update_user_group"
  | Delete_user_group _ => "delete_user_group"
  | Add_user_to_group _ _ => "add_user_to_group"
  | Remove_user_from_group _ _ => "remove_user_from_group"
  | User_group _ => "user_group"
  | User_groups => "user_groups"
  | User_group_users _ => "user_group_users"
  | Access_keys _ => "access_keys"
  | Generate_access_key _ => "generate_access_key"
  | Update_access_key _ _ => "update_access_key"
  | Delete_access_key _ _ => "delete_access_key"
  | Delete_access_key_by_name _ => "delete_access_key_by_name"
  end.

(** The functions whose body has the statement
    [options.content_type = "json"]. *)
Definition assigns_content_type (i : invocation) : bool :=
  match i with
  | Create_sub_account _ _ _ _ _ | Update_sub_account _ _ _ _ _
  | Create_user _ _ _ _ | Update_user _ _ _ _ _
  | Create_user_group _
  | Generate_access_key _ | Update_access_key _ _ => true
  | _ => false
  end.

(** The functions whose body reads a property of [options]. *)
Definition reads_options (i : invocation) : bool :=
  match i with
  | Access_keys _ | Generate_access_key _ | Update_access_key _ _
  | Delete_access_key_by_name _ => true
  | _ => false
  end.

(** The functions whose params go through [pickOnlyExistingValues]. *)
Definition applies_filter (i : invocation) : bool :=
  match i with
  | Users _ _ _ _ | Access_keys _ | Generate_access_key _
  | Update_access_key _ _ => true
  | _ => false
  end.

(** Where a request goes, as far as the literals of the URI tell: the method,
    the number of URI segments and the first segment. *)
Definition endpoint (res : request * heap)
    : http_method * nat * option value :=
  (req_method (fst res), length (req_uri (fst res)), head (req_uri (fst res))).

(** The keys of an object, in order. *)
Definition keys_of (o : obj) : list string := map fst o.

(** No key of [o] is bound to [undefined]. *)
Definition no_undefined (o : obj) : Prop :=
  Forall (fun kv => snd kv <> VUndefined) o.

End Account.

Import Account.

(** ** Objects and the store *)

Section ObjectFacts.

Implicit Types (o : obj) (k : string) (v : value).

Lemma lookup_set_prop_eq o k v : lookup_prop (set_prop o k v) k = Some v.
Proof.
  induction o as [|[k' v'] o IH]; simpl.
  - by rewrite String.eqb_refl.
  - destruct (String.eqb k' k) eqn:E; simpl; rewrite E; [done | exact IH].
Qed.

Lemma lookup_set_prop_ne o k k' v :
  k' <> k -> lookup_prop (set_prop o k v) k' = lookup_prop o k'.
Proof.
  intros Hne. induction o as [|[k0 v0] o IH]; simpl.
  - destruct (String.eqb k k') eqn:E; [|done].
    apply String.eqb_eq in E. congruence.
  - destruct (String.eqb k0 k) eqn:E; simpl.
    + apply String.eqb_eq in E. subst k0.
      destruct (String.eqb k k') eqn:E'; [|done].
      apply String.eqb_eq in E'. congruence.
    + by rewrite IH.
Qed.

Lemma get_set_prop_ne o k k' v :
  k' <> k -> get_prop (set_prop o k v) k' = get_prop o k'.
Proof. intros Hne. unfold get_prop. by rewrite lookup_set_prop_ne. Qed.

(** Assigning the same value again changes nothing. *)
Lemma set_prop_twice o k v : set_prop (set_prop o k v) k v = set_prop o k v.
Proof.
  induction o as [|[k' v'] o IH]; simpl.
  - by rewrite String.eqb_refl.
  - destruct (String.eqb k' k) eqn:E; simpl; rewrite E; [done | by rewrite IH].
Qed.

Lemma deref_insert_eq (h : heap) (l : loc) o : deref (<[l := o]> h) l = o.
Proof. unfold deref. by rewrite lookup_insert_eq. Qed.

End ObjectFacts.

(** ** The existing-values-only filter *)

Section FilterFacts.

Implicit Types (o source : obj) (keys : list string).

Lemma filter_twice {A} (f : A -> bool) (l : list A) :
  List.filter f (List.filter f l) = List.filter f l.
Proof.
  induction l as [|a l IH]; simpl; [done|].
  destruct (f a) eqn:E; simpl; [rewrite E; by f_equal | exact IH].
Qed.

Lemma filter_sublist {A} (f : A -> bool) (l : list A) :
  List.filter f l `sublist_of` l.
Proof.
  induction l as [|a l IH]; simpl; [constructor|].
  destruct (f a); by constructor.
Qed.

Lemma is_undefined_false v : is_undefined v = false -> v <> VUndefined.
Proof. by intros E ->. Qed.

(** What the filter returns binds no key to [undefined]. *)
Lemma pick_no_undefined source keys :
  no_undefined (pickOnlyExistingValues source keys).
Proof.
  unfold no_undefined, pickOnlyExistingValues.
  apply List.Forall_forall. intros [k v] Hin.
  apply List.filter_In in Hin as [_ Hf]. simpl in *.
  apply andb_true_iff in Hf as [_ Hv].
  apply is_undefined_false. by destruct (is_undefined v).
Qed.

End FilterFacts.

(** ** Running a builder *)

(** Unfolds a builder down to the store operations it performs. *)
Ltac run_builder :=
  unfold descriptor, forwarded_options, forwarded_params, forwarded_uri,
    invoke,
    sub_accounts, sub_account, create_sub_account, delete_sub_account,
    update_sub_account, user, users, create_user, update_user, delete_user,
    create_user_group, update_user_group, delete_user_group,
    add_user_to_group, remove_user_from_group, user_group, user_groups,
    user_group_users, access_keys, generate_access_key, update_access_key,
    delete_access_key, delete_access_key_by_name,
    call_account_api, default_options, new_object, read, assign, bind, ret,
    options_content;
  cbn [fst snd req_method req_uri req_params req_callback req_options].

(** Reads the options object back after the builder has written to it. *)
Ltac read_back :=
  repeat first
    [ rewrite deref_insert_eq
    | rewrite set_prop_twice
    | rewrite get_set_prop_ne by discriminate
    | rewrite lookup_set_prop_eq
    | rewrite lookup_set_prop_ne by discriminate ].

(** ** Properties of the builders *)

(** C8: [add_user_to_group] and [remove_user_from_group] hand the transport
    the URI segments ["user_groups", group_id, "users", user_id], group before
    user, whatever the identifiers, the options and the store are. *)
Theorem membership_uri_group_then_user
    (group_id user_id : value) (options : option loc) (callback : value)
    (h : heap) :
  forwarded_uri (add_user_to_group group_id user_id options callback h)
    = [VStr "user_groups"; group_id; VStr "users"; user_id]
  /\ forwarded_uri (remove_user_from_group group_id user_id options callback h)
    = [VStr "user_groups"; group_id; VStr "users"; user_id].
Proof. split; run_builder; by destruct options. Qed.

(** C10: when [ids] is not supplied, [sub_accounts] forwards the key [ids]
    bound to the empty list, while [enabled] and [prefix] are forwarded as they
    came, bound to [undefined] when not supplied; and whatever [ids] is, the
    key [ids] is present in the forwarded params. *)
Theorem sub_accounts_forwards_default_ids
    (enabled prefix : value) (options : option loc) (callback : value)
    (h : heap) :
  forwarded_params (sub_accounts enabled VUndefined prefix options callback h)
    = [("enabled", enabled); ("ids", VList []); ("prefix", prefix)]
  /\ forwarded_params
       (sub_accounts VUndefined VUndefined VUndefined options callback h)
     = [("enabled", VUndefined); ("ids", VList []); ("prefix", VUndefined)]
  /\ forall ids : value,
       lookup_prop
         (forwarded_params (sub_accounts enabled ids prefix options callback h))
         "ids"
       = Some (default_param (VList []) ids).
Proof.
  repeat split; try intros ids; run_builder; by destruct options.
Qed.

(** Solves a goal about the options forwarded by a builder that assigns
    [content_type]. *)
Ltac json_builder options :=
  run_builder; destruct options as [?l|];
  cbn [fst snd req_options]; read_back; reflexivity.

(** C5: [create_sub_account] forwards the caller's options with
    [content_type] assigned ["json"], whatever [content_type] the caller gave;
    every other key is looked up in the forwarded options as in the caller's:
    present with the same value, or absent in both. *)
Theorem create_sub_account_options_frame
    (name cloud_name custom_attributes enabled base_account : value)
    (options : option loc) (callback : value) (h : heap) :
  let res := create_sub_account name cloud_name custom_attributes enabled
               base_account options callback h in
  forwarded_options res
    = set_prop (options_content h options) "content_type" (VStr "json")
  /\ lookup_prop (forwarded_options res) "content_type" = Some (VStr "json")
  /\ forall k : string,
       lookup_prop (forwarded_options res) k
       = if String.eqb k "content_type" then Some (VStr "json")
         else lookup_prop (options_content h options) k.
Proof.
  intros res.
  assert (Hres : forwarded_options res
    = set_prop (options_content h options) "content_type" (VStr "json")).
  { subst res. json_builder options. }
  rewrite Hres. split; [done|]. split.
  - apply lookup_set_prop_eq.
  - intros k. destruct (String.eqb k "content_type") eqn:E.
    + apply String.eqb_eq in E. subst k. apply lookup_set_prop_eq.
    + apply String.eqb_neq in E. by apply lookup_set_prop_ne.
Qed.

(** C1: of the eight builders of a structured create or update payload, seven
    forward options whose [content_type] is ["json"]; [update_user_group]
    assigns nothing and forwards the caller's options as they are, so that
    with no options (or options without [content_type]) the transport gets
    no [content_type] at all. *)
Theorem content_type_json_but_for_update_user_group
    (a b c d e : value) (options : option loc) (callback : value) (h : heap) :
  let json (res : request * heap) :=
    lookup_prop (forwarded_options res) "content_type" = Some (VStr "json") in
  (json (create_sub_account a b c d e options callback h)
   /\ json (update_sub_account a b c d e options callback h)
   /\ json (create_user a b c d options callback h)
   /\ json (update_user a b c d e options callback h)
   /\ json (create_user_group a options callback h)
   /\ json (generate_access_key a options callback h)
   /\ json (update_access_key a b options callback h))
  /\ forwarded_options (update_user_group a b options callback h)
     = options_content h options
  /\ lookup_prop
       (forwarded_options
          (update_user_group (VStr "g1") (VStr "editors") None VUndefined ∅))
       "content_type"
     = None.
Proof.
  intros json. subst json. cbv beta.
  split; [|split].
  - repeat apply conj; json_builder options.
  - run_builder. destruct options as [l|]; cbn [fst snd req_options];
      by rewrite ?deref_insert_eq.
  - vm_compute. reflexivity.
Qed.

(** C3: [delete_access_key_by_name] forwards params with the single key
    [name] bound to [options.name].  With ["acct1"] and [{name: "key1"}] the
    descriptor is (DELETE, ["sub_accounts", "acct1", "access_keys"],
    [{name: "key1"}]); with [name] unset the key [name] is still there, bound
    to [undefined], and no other key (such as [page]) ever is. *)
Theorem delete_access_key_by_name_params
    (sub_account_id : value) (options : option loc) (callback : value)
    (h : heap) :
  forwarded_params (delete_access_key_by_name sub_account_id options callback h)
    = [("name", get_prop (options_content h options) "name")]
  /\ descriptor
       (delete_access_key_by_name (VStr "acct1") (Some 1%positive) VUndefined
          {[ 1%positive := [("name", VStr "key1")] ]})
     = (DELETE, [VStr "sub_accounts"; VStr "acct1"; VStr "access_keys"],
        [("name", VStr "key1")], [("name", VStr "key1")])
  /\ forwarded_params
       (delete_access_key_by_name (VStr "acct1") None VUndefined ∅)
     = [("name", VUndefined)]
  /\ lookup_prop
       (forwarded_params
          (delete_access_key_by_name (VStr "acct1") None VUndefined ∅))
       "name"
     = Some VUndefined.
Proof.
  split; [|split; [|split]].
  - run_builder. destruct options as [l|]; cbn [fst snd req_params];
      by rewrite ?deref_insert_eq.
  - vm_compute. reflexivity.
  - vm_compute. reflexivity.
  - vm_compute. reflexivity.
Qed.

(** The params of [users]: its positional arguments, filtered. *)
Lemma users_params
    (pending user_ids prefix sub_account_id : value) (options : option loc)
    (callback : value) (h : heap) :
  forwarded_params
    (users pending user_ids prefix sub_account_id options callback h)
  = pickOnlyExistingValues
      [("ids", user_ids); ("pending", pending); ("prefix", prefix);
       ("sub_account_id", sub_account_id)]
      ["ids"; "pending"; "prefix"; "sub_account_id"].
Proof. run_builder. by destruct options. Qed.

(** The params of [access_keys]: four fields of the options, filtered. *)
Lemma access_keys_params
    (sub_account_id : value) (options : option loc) (callback : value)
    (h : heap) :
  forwarded_params (access_keys sub_account_id options callback h)
  = pickOnlyExistingValues
      (access_keys_fields (options_content h options))
      ["page_size"; "page"; "sort_by"; "sort_order"].
Proof.
  run_builder. destruct options as [l|]; cbn [fst snd req_params];
    by rewrite ?deref_insert_eq.
Qed.

(** The params of [generate_access_key]: two fields of the options, filtered. *)
Lemma generate_access_key_params
    (sub_account_id : value) (options : option loc) (callback : value)
    (h : heap) :
  forwarded_params (generate_access_key sub_account_id options callback h)
  = pickOnlyExistingValues (access_key_fields (options_content h options))
      ["name"; "enabled"].
Proof.
  run_builder. destruct options as [l|]; cbn [fst snd req_params];
    by rewrite ?deref_insert_eq.
Qed.

(** The params of [update_access_key]: two fields of the options, filtered. *)
Lemma update_access_key_params
    (sub_account_id api_key : value) (options : option loc) (callback : value)
    (h : heap) :
  forwarded_params (update_access_key sub_account_id api_key options callback h)
  = pickOnlyExistingValues (access_key_fields (options_content h options))
      ["name"; "enabled"].
Proof.
  run_builder. destruct options as [l|]; cbn [fst snd req_params];
    by rewrite ?deref_insert_eq.
Qed.

(** C4: the four builders that apply the filter ([users], [access_keys],
    [generate_access_key], [update_access_key]) forward params in which no key
    is bound to [undefined], whatever is and is not supplied. *)
Theorem filtered_params_bind_no_undefined
    (a b c d : value) (options : option loc) (callback : value) (h : heap) :
  no_undefined (forwarded_params (users a b c d options callback h))
  /\ no_undefined (forwarded_params (access_keys a options callback h))
  /\ no_undefined (forwarded_params (generate_access_key a options callback h))
  /\ no_undefined (forwarded_params (update_access_key a b options callback h)).
Proof.
  rewrite users_params, access_keys_params, generate_access_key_params,
    update_access_key_params.
  repeat apply conj; apply pick_no_undefined.
Qed.

(** C7: filtering what the filter returned, with the same keys, changes
    nothing; and the entries the filter keeps are in the order the source has
    them. *)
Theorem pickOnlyExistingValues_idempotent_in_order
    (source : obj) (keys : list string) :
  pickOnlyExistingValues (pickOnlyExistingValues source keys) keys
    = pickOnlyExistingValues source keys
  /\ pickOnlyExistingValues source keys `sublist_of` source.
Proof.
  unfold pickOnlyExistingValues. split.
  - apply filter_twice.
  - apply filter_sublist.
Qed.

(** C6: when the options of [access_keys] have [page_size] set and [page],
    [sort_by] and [sort_order] unset, the params forwarded are exactly
    [{page_size: v}]: that key and no other, none bound to [undefined]. *)
Theorem access_keys_only_page_size
    (sub_account_id : value) (options : option loc) (callback : value)
    (h : heap) :
  is_undefined (get_prop (options_content h options) "page_size") = false ->
  get_prop (options_content h options) "page" = VUndefined ->
  get_prop (options_content h options) "sort_by" = VUndefined ->
  get_prop (options_content h options) "sort_order" = VUndefined ->
  forwarded_params (access_keys sub_account_id options callback h)
    = [("page_size", get_prop (options_content h options) "page_size")]
  /\ no_undefined (forwarded_params (access_keys sub_account_id options callback h)).
Proof.
  intros Hsize Hpage Hby Horder.
  split; [|rewrite access_keys_params; apply pick_no_undefined].
  rewrite access_keys_params. unfold access_keys_fields, pickOnlyExistingValues.
  rewrite Hpage, Hby, Horder. simpl. by rewrite Hsize.
Qed.

Lemma access_keys_only_page_size_witness :
  let h : heap := {[ 1%positive := [("page_size", VNum 25)] ]} in
  let options := Some 1%positive in
  (is_undefined (get_prop (options_content h options) "page_size") = false
   /\ get_prop (options_content h options) "page" = VUndefined
   /\ get_prop (options_content h options) "sort_by" = VUndefined
   /\ get_prop (options_content h options) "sort_order" = VUndefined)
  /\ forwarded_params (access_keys (VStr "acct1") options VUndefined h)
     = [("page_size", VNum 25)]
  /\ no_undefined
       (forwarded_params (access_keys (VStr "acct1") options VUndefined h)).
Proof.
  intros h options. split.
  - vm_compute. repeat split.
  - apply (access_keys_only_page_size (VStr "acct1") options VUndefined h);
      vm_compute; reflexivity.
Defined.

(** C2, as the code has it: [users], [access_keys], [generate_access_key] and
    [update_access_key] forward params produced by the filter, so with no key
    bound to [undefined].  The three access-key builders read the fields they
    filter from the options; [users] reads them from its positional arguments
    and reads nothing from its options. *)
Theorem filtered_params_sources
    (a b c d : value) (options : option loc) (callback : value) (h : heap) :
  (forwarded_params (users a b c d options callback h)
     = pickOnlyExistingValues
         [("ids", b); ("pending", a); ("prefix", c); ("sub_account_id", d)]
         ["ids"; "pending"; "prefix"; "sub_account_id"]
   /\ forwarded_params (access_keys a options callback h)
     = pickOnlyExistingValues (access_keys_fields (options_content h options))
         ["page_size"; "page"; "sort_by"; "sort_order"]
   /\ forwarded_params (generate_access_key a options callback h)
     = pickOnlyExistingValues (access_key_fields (options_content h options))
         ["name"; "enabled"]
   /\ forwarded_params (update_access_key a b options callback h)
     = pickOnlyExistingValues (access_key_fields (options_content h options))
         ["name"; "enabled"])
  /\ (no_undefined (forwarded_params (users a b c d options callback h))
      /\ no_undefined (forwarded_params (access_keys a options callback h))
      /\ no_undefined
           (forwarded_params (generate_access_key a options callback h))
      /\ no_undefined
           (forwarded_params (update_access_key a b options callback h))).
Proof.
  rewrite users_params, access_keys_params, generate_access_key_params,
    update_access_key_params.
  split; [done|]. repeat apply conj; apply pick_no_undefined.
Qed.

(** C2 fails as stated: [sub_accounts], called with nothing supplied, forwards
    [enabled] and [prefix] bound to [undefined]; and [users] does not read its
    fields from the options: a [prefix] given in the options is not forwarded,
    a [prefix] given as the third argument is. *)
Lemma sub_accounts_users_not_filtered_from_options :
  ~ no_undefined
      (forwarded_params
         (sub_accounts VUndefined VUndefined VUndefined None VUndefined ∅))
  /\ forwarded_params
       (users VUndefined VUndefined VUndefined VUndefined (Some 1%positive)
          VUndefined {[ 1%positive := [("prefix", VStr "jo")] ]})
     = []
  /\ forwarded_params
       (users VUndefined VUndefined (VStr "jo") VUndefined None VUndefined ∅)
     = [("prefix", VStr "jo")].
Proof.
  split; [|split; vm_compute; reflexivity].
  intros Hno. apply List.Forall_inv in Hno. by apply Hno.
Qed.

(** ** Determinism *)

(** Brings the contents of two option objects known to be equal to a common
    form. *)
Ltac same_content H :=
  cbn [options_content] in H;
  first [ rewrite H | rewrite <- H | idtac ].

(** A descriptor depends on the store through the content of the options
    object only. *)
Lemma descriptor_of_content
    (i : invocation) (options options' : option loc) (callback : value)
    (h h' : heap) :
  options_content h options = options_content h' options' ->
  descriptor (invoke i options callback h)
  = descriptor (invoke i options' callback h').
Proof.
  intros Heq.
  destruct i; run_builder;
    destruct options as [l|], options' as [l'|];
    cbn [fst snd req_method req_uri req_params req_options];
    rewrite ?deref_insert_eq; same_content Heq; reflexivity.
Qed.

(** A second call with the same arguments, made in the store the first call
    left behind, forwards the same descriptor: what the first call wrote to
    the options, the second writes again. *)
Lemma descriptor_again
    (i : invocation) (options : option loc) (callback : value) (h : heap) :
  descriptor (invoke i options callback (snd (invoke i options callback h)))
  = descriptor (invoke i options callback h).
Proof.
  destruct i; run_builder; destruct options as [l|];
    cbn [fst snd req_method req_uri req_params req_options];
    read_back; reflexivity.
Qed.

(** C9: every exported function is deterministic.  Two calls of the same
    function with the same positional arguments and options of equal content,
    in whatever stores and whether or not the options are the same object,
    forward equal descriptors (method, URI, params, options); and so does a
    call repeated with the very same options object after the first call has
    written to it. *)
Theorem invoke_deterministic
    (i : invocation) (options options' : option loc) (callback : value)
    (h h' : heap) :
  options_content h options = options_content h' options' ->
  descriptor (invoke i options callback h)
    = descriptor (invoke i options' callback h')
  /\ descriptor (invoke i options callback (snd (invoke i options callback h)))
    = descriptor (invoke i options callback h).
Proof.
  intros Heq. split.
  - by apply descriptor_of_content.
  - apply descriptor_again.
Qed.

Lemma invoke_deterministic_witness :
  let i := Create_sub_account (VStr "Shop") (VStr "shop_eu") VUndefined
             (VBool true) VUndefined in
  let h : heap := {[ 1%positive := [("timeout", VNum 60)] ]} in
  let h' : heap := {[ 2%positive := [("timeout", VNum 60)] ]} in
  options_content h (Some 1%positive) = options_content h' (Some 2%positive)
  /\ descriptor (invoke i (Some 1%positive) VUndefined h)
     = descriptor (invoke i (Some 2%positive) VUndefined h')
  /\ descriptor
       (invoke i (Some 1%positive) VUndefined
          (snd (invoke i (Some 1%positive) VUndefined h)))
     = descriptor (invoke i (Some 1%positive) VUndefined h).
Proof.
  intros i h h'. split.
  - vm_compute. reflexivity.
  - apply (invoke_deterministic i (Some 1%positive) (Some 2%positive)
             VUndefined h h').
    vm_compute. reflexivity.
Defined.

(** ** What a call does to the store *)

Lemma deref_insert_ne (h : heap) (l l' : loc) (o : obj) :
  l <> l' -> deref (<[l := o]> h) l' = deref h l'.
Proof. intros Hne. unfold deref. by rewrite lookup_insert_ne. Qed.

(** A new object is none of the objects of the store. *)
Lemma fresh_not_allocated (h : heap) : h !! fresh (dom h) = None.
Proof. apply not_elem_of_dom, is_fresh. Qed.

(** X1: called with an options object, a function hands the transport that
    very object and the callback it was given; the seven functions that assign
    [content_type] change that one object of the store, by that one
    assignment, and the sixteen others leave the whole store as it was. *)
Theorem invoke_store_effect
    (i : invocation) (l : loc) (callback : value) (h : heap) :
  let res := invoke i (Some l) callback h in
  req_options (fst res) = l
  /\ req_callback (fst res) = callback
  /\ snd res
     = if assigns_content_type i
       then <[l := set_prop (deref h l) "content_type" (VStr "json")]> h
       else h.
Proof. destruct i; run_builder; done. Qed.

(** X2: called without options, a function makes a new object for them: the
    object handed to the transport was not in the store before the call, every
    object that was there is still there unchanged, and nothing but that one
    object has been added. *)
Theorem invoke_default_options_fresh
    (i : invocation) (callback : value) (h : heap) :
  let res := invoke i None callback h in
  h !! req_options (fst res) = None
  /\ h ⊆ snd res
  /\ dom (snd res) = {[ req_options (fst res) ]} ∪ dom h
  /\ forwarded_options res
     = if assigns_content_type i then [("content_type", VStr "json")] else [].
Proof.
  destruct i; run_builder;
    (split; [apply fresh_not_allocated|]);
    rewrite ?insert_insert_eq;
    (split; [apply insert_subseteq, fresh_not_allocated|]);
    (split; [apply dom_insert_L|]);
    by rewrite !deref_insert_eq.
Qed.

(** ** The options a writing function forwards *)

(** Assigning a property keeps the keys in place; a new key goes last. *)
Lemma keys_of_set_prop (o : obj) (k : string) (v : value) :
  keys_of (set_prop o k v)
  = match lookup_prop o k with
    | Some _ => keys_of o
    | None => (keys_of o ++ [k])%list
    end.
Proof.
  unfold keys_of. induction o as [|[k' v'] o IH]; simpl; [done|].
  destruct (String.eqb k' k) eqn:E; simpl; [done|].
  rewrite IH. by destruct (lookup_prop o k).
Qed.

(** The options forwarded by a function that assigns [content_type]. *)
Lemma forwarded_options_assigned
    (i : invocation) (options : option loc) (callback : value) (h : heap) :
  assigns_content_type i = true ->
  forwarded_options (invoke i options callback h)
  = set_prop (options_content h options) "content_type" (VStr "json").
Proof.
  intros Hw. destruct i; try discriminate Hw;
    run_builder; destruct options as [l|];
    cbn [fst snd req_options]; read_back; reflexivity.
Qed.

(** The options forwarded by a function that does not assign [content_type]. *)
Lemma forwarded_options_untouched
    (i : invocation) (options : option loc) (callback : value) (h : heap) :
  assigns_content_type i = false ->
  forwarded_options (invoke i options callback h) = options_content h options.
Proof.
  intros Hw. destruct i; try discriminate Hw;
    run_builder; destruct options as [l|];
    cbn [fst snd req_options]; read_back; reflexivity.
Qed.

(** X3: each of the seven functions that assign [content_type] forwards the
    caller's option keys in the caller's order: [content_type] stays where the
    caller had it, or comes last when the caller had none; its value is
    ["json"] and every other key has the caller's value. *)
Theorem assigning_functions_keep_option_keys
    (i : invocation) (options : option loc) (callback : value) (h : heap) :
  assigns_content_type i = true ->
  let given := options_content h options in
  let sent := forwarded_options (invoke i options callback h) in
  keys_of sent
    = match lookup_prop given "content_type" with
      | Some _ => keys_of given
      | None => (keys_of given ++ ["content_type"])%list
      end
  /\ forall k : string,
       lookup_prop sent k
       = if String.eqb k "content_type" then Some (VStr "json")
         else lookup_prop given k.
Proof.
  intros Hw given sent. subst sent.
  rewrite forwarded_options_assigned by done. fold given. split.
  - apply keys_of_set_prop.
  - intros k. destruct (String.eqb k "content_type") eqn:E.
    + apply String.eqb_eq in E. subst k. apply lookup_set_prop_eq.
    + apply String.eqb_neq in E. by apply lookup_set_prop_ne.
Qed.

Lemma assigning_functions_keep_option_keys_witness :
  let i := Update_user (VStr "u7") (VStr "Ann") VUndefined VUndefined VUndefined in
  let h : heap :=
    {[ 1%positive := [("content_type", VStr "multipart"); ("timeout", VNum 60)] ]} in
  let sent := forwarded_options (invoke i (Some 1%positive) VUndefined h) in
  assigns_content_type i = true
  /\ keys_of sent = ["content_type"; "timeout"]
  /\ forall k : string,
       lookup_prop sent k
       = if String.eqb k "content_type" then Some (VStr "json")
         else lookup_prop (options_content h (Some 1%positive)) k.
Proof.
  intros i h sent. split; [reflexivity|].
  apply (assigning_functions_keep_option_keys i (Some 1%positive) VUndefined h).
  reflexivity.
Defined.

(** ** Calls that share an options object *)

(** X4: once a function that assigns [content_type] has been called with an
    options object, every later call made with that same object, of whatever
    function, forwards options where [content_type] is ["json"]: the
    assignment stays on the caller's object. *)
Theorem content_type_stays_on_shared_options
    (i j : invocation) (l : loc) (callback callback' : value) (h : heap) :
  assigns_content_type i = true ->
  lookup_prop
    (forwarded_options
       (invoke j (Some l) callback' (snd (invoke i (Some l) callback h))))
    "content_type"
  = Some (VStr "json").
Proof.
  intros Hw.
  assert (Hh : deref (snd (invoke i (Some l) callback h)) l
               = set_prop (deref h l) "content_type" (VStr "json")).
  { destruct i; try discriminate Hw; run_builder; by rewrite deref_insert_eq. }
  destruct (assigns_content_type j) eqn:Hj.
  - rewrite forwarded_options_assigned by done.
    cbn [options_content]. rewrite Hh, set_prop_twice. apply lookup_set_prop_eq.
  - rewrite forwarded_options_untouched by done.
    cbn [options_content]. rewrite Hh. apply lookup_set_prop_eq.
Qed.

Lemma content_type_stays_on_shared_options_witness :
  let i := Create_user (VStr "Ann") (VStr "ann@example.com") (VStr "admin")
             VUndefined in
  let j := Sub_accounts (VBool true) VUndefined VUndefined in
  let h : heap := {[ 1%positive := [("timeout", VNum 60)] ]} in
  assigns_content_type i = true
  /\ lookup_prop
       (forwarded_options
          (invoke j (Some 1%positive) VUndefined
             (snd (invoke i (Some 1%positive) VUndefined h))))
       "content_type"
     = Some (VStr "json").
Proof.
  intros i j h. split; [reflexivity|].
  apply (content_type_stays_on_shared_options i j 1%positive VUndefined
           VUndefined h).
  reflexivity.
Defined.

(** A call leaves alone every object but the options it forwards. *)
Lemma invoke_other_object
    (i : invocation) (options : option loc) (callback : value) (h : heap)
    (l' : loc) :
  l' <> req_options (fst (invoke i options callback h)) ->
  deref (snd (invoke i options callback h)) l' = deref h l'.
Proof.
  destruct i; run_builder; destruct options as [l|];
    cbn [fst snd req_options]; intros Hne;
    rewrite ?deref_insert_ne by done; reflexivity.
Qed.

(** X5: a call does not reach a later call through the store unless they
    share the options object.  When the second call is given no options, or
    options other than the object the first call forwarded, its descriptor is
    what it would be had the first call not been made. *)
Theorem calls_on_distinct_options_independent
    (i j : invocation) (options options' : option loc)
    (callback callback' : value) (h : heap) :
  options' <> Some (req_options (fst (invoke i options callback h))) ->
  descriptor (invoke j options' callback' (snd (invoke i options callback h)))
  = descriptor (invoke j options' callback' h).
Proof.
  intros Hne. apply descriptor_of_content.
  destruct options' as [l'|]; cbn [options_content]; [|done].
  apply invoke_other_object. congruence.
Qed.

Lemma calls_on_distinct_options_independent_witness :
  let i := Create_user (VStr "Ann") (VStr "ann@example.com") (VStr "admin")
             VUndefined in
  let j := Users VUndefined VUndefined (VStr "an") VUndefined in
  let h : heap :=
    {[ 1%positive := [("timeout", VNum 60)]; 2%positive := [("timeout", VNum 5)] ]} in
  bool_decide
    (Some 2%positive
     <> Some (req_options (fst (invoke i (Some 1%positive) VUndefined h))))
  = true
  /\ descriptor
       (invoke j (Some 2%positive) VUndefined
          (snd (invoke i (Some 1%positive) VUndefined h)))
     = descriptor (invoke j (Some 2%positive) VUndefined h).
Proof.
  intros i j h. split; [vm_compute; reflexivity|].
  apply (calls_on_distinct_options_independent i j (Some 1%positive)
           (Some 2%positive) VUndefined VUndefined h).
  apply (bool_decide_unpack _). vm_compute. reflexivity.
Defined.

(** ** Where requests go *)

(** The method and the URI are built from the positional arguments alone. *)
Lemma method_uri_of_arguments
    (i : invocation) (options options' : option loc)
    (callback callback' : value) (h h' : heap) :
  req_method (fst (invoke i options callback h))
    = req_method (fst (invoke i options' callback' h'))
  /\ req_uri (fst (invoke i options callback h))
    = req_uri (fst (invoke i options' callback' h')).
Proof.
  destruct i; run_builder; by destruct options, options'.
Qed.

(** X6: the method and the URI segments of a request do not depend on the
    options, on the callback or on the store: nothing a caller puts in the
    options can send a request to another resource. *)
Theorem method_and_uri_ignore_options
    (i : invocation) (options options' : option loc)
    (callback callback' : value) (h h' : heap) :
  req_method (fst (invoke i options callback h))
    = req_method (fst (invoke i options' callback' h'))
  /\ forwarded_uri (invoke i options callback h)
    = forwarded_uri (invoke i options' callback' h').
Proof.
  unfold forwarded_uri.
  destruct i; run_builder; by destruct options, options'.
Qed.

(** X7: no two exported functions address the same endpoint.  Two requests
    with the same method, the same number of URI segments and the same first
    segment come from the same exported function, whatever the identifiers,
    options and callbacks are. *)
Theorem endpoint_identifies_function
    (i j : invocation) (options options' : option loc)
    (callback callback' : value) (h h' : heap) :
  endpoint (invoke i options callback h)
    = endpoint (invoke j options' callback' h') ->
  exported_name i = exported_name j.
Proof.
  unfold endpoint.
  destruct (method_uri_of_arguments i options None callback VUndefined h ∅)
    as [-> ->].
  destruct (method_uri_of_arguments j options' None callback' VUndefined h' ∅)
    as [-> ->].
  destruct i, j; try reflexivity; intros Heq; vm_compute in Heq;
    discriminate Heq.
Qed.

Lemma endpoint_identifies_function_witness :
  let i := Delete_access_key_by_name (VStr "acct1") in
  let j := Delete_access_key_by_name (VNum 42) in
  let h : heap := {[ 1%positive := [("name", VStr "key1")] ]} in
  endpoint (invoke i (Some 1%positive) VUndefined h)
    = endpoint (invoke j None (VFun 3%positive) ∅)
  /\ exported_name i = exported_name j.
Proof.
  intros i j h. split; [vm_compute; reflexivity|].
  apply (endpoint_identifies_function i j (Some 1%positive) None VUndefined
           (VFun 3%positive) h ∅).
  vm_compute. reflexivity.
Defined.

(** ** What the params are made of *)

(** X8: only [access_keys], [generate_access_key], [update_access_key] and
    [delete_access_key_by_name] read the options.  The params of every other
    function are the same whatever the options, the callback and the store
    are: a field put in the options of, say, [users] never reaches its
    params. *)
Theorem params_ignore_options
    (i : invocation) (options options' : option loc)
    (callback callback' : value) (h h' : heap) :
  reads_options i = false ->
  forwarded_params (invoke i options callback h)
  = forwarded_params (invoke i options' callback' h').
Proof.
  intros Hr. destruct i; try discriminate Hr;
    run_builder; by destruct options, options'.
Qed.

Lemma params_ignore_options_witness :
  let i := Users VUndefined VUndefined (VStr "an") VUndefined in
  let h : heap :=
    {[ 1%positive := [("prefix", VStr "bo"); ("page_size", VNum 10)] ]} in
  reads_options i = false
  /\ forwarded_params (invoke i (Some 1%positive) VUndefined h)
     = forwarded_params (invoke i None (VFun 2%positive) ∅).
Proof.
  intros i h. split; [reflexivity|].
  apply (params_ignore_options i (Some 1%positive) None VUndefined
           (VFun 2%positive) h ∅).
  reflexivity.
Defined.

(** X9: apart from the four functions that filter their params, the keys of
    the params are fixed by the function: the values of the arguments and of
    the options neither remove a key nor add one, so a field that is not
    supplied is forwarded as a key bound to [undefined]. *)
Theorem unfiltered_params_keys_fixed
    (i j : invocation) (options options' : option loc)
    (callback callback' : value) (h h' : heap) :
  applies_filter i = false ->
  exported_name i = exported_name j ->
  keys_of (forwarded_params (invoke i options callback h))
  = keys_of (forwarded_params (invoke j options' callback' h')).
Proof.
  intros Hf Hn. destruct i; try discriminate Hf;
    destruct j; try discriminate Hn;
    run_builder; by destruct options, options'.
Qed.

Lemma unfiltered_params_keys_fixed_witness :
  let i := Create_user VUndefined VUndefined VUndefined VUndefined in
  let j := Create_user (VStr "Ann") (VStr "ann@example.com") (VStr "admin")
             (VList [VStr "acct1"]) in
  (applies_filter i = false /\ exported_name i = exported_name j)
  /\ keys_of (forwarded_params (invoke i None VUndefined ∅))
     = keys_of (forwarded_params (invoke j None VUndefined ∅)).
Proof.
  intros i j. split; [split; reflexivity|].
  apply (unfiltered_params_keys_fixed i j None None VUndefined VUndefined ∅ ∅);
    reflexivity.
Defined.

(** X10: a function that sends a GET or a DELETE request writes nothing: the
    options object it was given, and the whole store, are after the call what
    they were before.  Only POST and PUT requests come with an assignment to
    the caller's options. *)
Theorem get_and_delete_leave_options_alone
    (i : invocation) (l : loc) (callback : value) (h : heap) :
  req_method (fst (invoke i (Some l) callback h)) = GET
  \/ req_method (fst (invoke i (Some l) callback h)) = DELETE ->
  snd (invoke i (Some l) callback h) = h
  /\ forwarded_options (invoke i (Some l) callback h) = deref h l.
Proof.
  destruct i; run_builder; intros [Hm|Hm]; try discriminate Hm; done.
Qed.

Lemma get_and_delete_leave_options_alone_witness :
  let i := Delete_access_key_by_name (VStr "acct1") in
  let h : heap := {[ 1%positive := [("name", VStr "key1")] ]} in
  (req_method (fst (invoke i (Some 1%positive) VUndefined h)) = GET
   \/ req_method (fst (invoke i (Some 1%positive) VUndefined h)) = DELETE)
  /\ snd (invoke i (Some 1%positive) VUndefined h) = h
  /\ forwarded_options (invoke i (Some 1%positive) VUndefined h)
     = [("name", VStr "key1")].
Proof.
  intros i h. split; [right; reflexivity|].
  apply (get_and_delete_leave_options_alone i 1%positive VUndefined h).
  right. reflexivity.
Defined.

(** X11: every URI starts with the literal name of one of the three
    collections and has between one and four segments; the identifiers a
    caller supplies never come first, so they cannot change the collection a
    request addresses. *)
Theorem uri_starts_with_collection
    (i : invocation) (options : option loc) (callback : value) (h : heap) :
  let uri := forwarded_uri (invoke i options callback h) in
  (head uri = Some (VStr "sub_accounts")
   \/ head uri = Some (VStr "users")
   \/ head uri = Some (VStr "user_groups"))
  /\ 1 <= length uri <= 4.
Proof.
  destruct i; run_builder; destruct options as [l|];
    cbn [fst snd req_uri head length]; (split; [tauto | lia]).
Qed.
